(** * RoadArchive: archive operations over zip, tar and gzip files

    A shallow embedding of [src/roadarchive/archive.py]: the format
    detection of the read and write facades, the [Archive] operations
    [list], [extract], [extract_file], [read], [info] and the
    [ArchiveBuilder] operations [add_file], [add_bytes], [build].

    The container and codec libraries ([zipfile], [tarfile], [gzip]) and
    the filesystem are collaborators of the program.  They are modelled
    here by what they store and return, not by their binary layouts.
    [add_dir] and the helpers [create_zip] and [create_tar_gz] walk and
    test directories, which the map of files does not hold: they take what
    the host says about directories as a [Tree]. *)

From Stdlib Require Import Ascii NArith ZArith Lia.
From Stdlib Require String.
From stdpp Require Import base option list gmap strings.

#[local] Set Warnings "-clear-no-such-hyp".

Local Open Scope stdpp_scope.

(** ** Python strings

    A [str] is modelled as a [string] over the code points below 256. *)

(** [str.lower] on one code point: [A-Z] and the Latin-1 capitals
    (0xC0-0xDE without the multiplication sign 0xD7) move up by 32. *)
Definition lower_char (c : ascii) : ascii :=
  let n := N_of_ascii c in
  if ((65 <=? n) && (n <=? 90) || (192 <=? n) && (n <=? 222) && negb (n =? 215))%N
  then ascii_of_N (n + 32)
  else c.

Fixpoint lower (s : string) : string :=
  match s with
  | EmptyString => EmptyString
  | String c s' => String (lower_char c) (lower s')
  end.

Definition chars (s : string) : list ascii := String.list_ascii_of_string s.

Fixpoint starts_with (p s : list ascii) : bool :=
  match p, s with
  | [], _ => true
  | _ :: _, [] => false
  | a :: p', b :: s' => Ascii.eqb a b && starts_with p' s'
  end.

(** [s.endswith(suf)], read from the last character backwards. *)
Definition endswith (s suf : string) : bool :=
  starts_with (rev (chars suf)) (rev (chars s)).

(** [s.split(sep)] for a one-character separator. *)
Fixpoint split (sep : ascii) (s : string) : list string :=
  match s with
  | EmptyString => [EmptyString]
  | String c s' =>
      if Ascii.eqb c sep then EmptyString :: split sep s'
      else match split sep s' with
           | h :: t => String c h :: t
           | [] => [String c EmptyString]
           end
  end.

(** [s.rfind(c)]: the index of the last occurrence, [None] for -1. *)
Fixpoint rfind (c : ascii) (s : string) : option nat :=
  match s with
  | EmptyString => None
  | String a s' =>
      match rfind c s' with
      | Some i => Some (S i)
      | None => if Ascii.eqb a c then Some 0 else None
      end
  end.

(** The part of [s] from its first NUL on is dropped. *)
Fixpoint upto_nul (s : string) : string :=
  match s with
  | EmptyString => EmptyString
  | String c s' => if Ascii.eqb c zero then EmptyString else String c (upto_nul s')
  end.

(** [s.rstrip("/")] and [s.lstrip("/")]. *)
Fixpoint rstrip_slash (s : string) : string :=
  match s with
  | EmptyString => EmptyString
  | String c s' =>
      match rstrip_slash s' with
      | EmptyString => if Ascii.eqb c "/"%char then EmptyString else String c EmptyString
      | r => String c r
      end
  end.

Fixpoint lstrip_slash (s : string) : string :=
  match s with
  | String c s' => if Ascii.eqb c "/"%char then lstrip_slash s' else s
  | EmptyString => EmptyString
  end.

(** ** Paths ([pathlib], POSIX flavour)

    A path is parsed into its root and its components; empty components
    and ["."] are dropped when it is parsed. *)

Record PurePath := { root : string; parts : list string }.

Definition leading_slashes (s : string) : nat :=
  String.length s - String.length (lstrip_slash s).

Definition splitroot (s : string) : string :=
  match leading_slashes s with
  | 0 => ""
  | 2 => "//"
  | _ => "/"
  end.

Definition Path (s : string) : PurePath :=
  {| root := splitroot s;
     parts := filter (λ x, x ≠ "" ∧ x ≠ ".") (split "/"%char s) |}.

(** [str(p)], the text handed to the operating system. *)
Definition str (p : PurePath) : string :=
  match root p +:+ String.concat "/" (parts p) with
  | EmptyString => "."
  | s => s
  end.

(** [p.name]: the final component, empty when there is none. *)
Definition name (p : PurePath) : string := default "" (last (parts p)).

(** [p.stem]: the name without its last suffix. *)
Definition stem (p : PurePath) : string :=
  let n := name p in
  match rfind "."%char n with
  | Some i =>
      if (0 <? i) && (i <? String.length n - 1)
      then String.substring 0 i n else n
  | None => n
  end.

(** [p / s]: a rooted right operand replaces the left one. *)
Definition joinpath (p : PurePath) (s : string) : PurePath :=
  let q := Path s in
  match root q with
  | EmptyString => {| root := root p; parts := parts p ++ parts q |}
  | _ => q
  end.

(** [p / q] for a path [q]. *)
Definition joinpaths (p q : PurePath) : PurePath :=
  match root q with
  | EmptyString => {| root := root p; parts := parts p ++ parts q |}
  | _ => q
  end.

(** [p.relative_to(other)]: [None] stands for the [ValueError] of a path
    that is not below [other]. *)
Definition relative_to (p other : PurePath) : option PurePath :=
  if bool_decide (root p = root other ∧ parts other `prefix_of` parts p)
  then Some {| root := ""; parts := drop (length (parts other)) (parts p) |}
  else None.

(** [os.path.join(a, b)] and [os.path.normpath(path)] of [posixpath]. *)
Definition os_path_join (a b : string) : string :=
  if String.prefix "/" b then b
  else if bool_decide (a = "") || endswith a "/" then a +:+ b
  else a +:+ "/" +:+ b.

Definition normpath (path : string) : string :=
  if bool_decide (path = "") then "."
  else
    let initial_slashes :=
      match leading_slashes path with 0 => 0 | 2 => 2 | _ => 1 end in
    let step (new_comps : list string) (comp : string) : list string :=
      if bool_decide (comp = "" ∨ comp = ".") then new_comps
      else if bool_decide (comp ≠ ".."
                           ∨ (initial_slashes = 0 ∧ new_comps = [])
                           ∨ last new_comps = Some "..")
      then new_comps ++ [comp]
      else removelast new_comps in
    let comps := fold_left step (split "/"%char path) [] in
    match String.concat "" (replicate initial_slashes "/")
          +:+ String.concat "/" comps with
    | EmptyString => "."
    | p => p
    end.

(** ** Data model *)

Definition bytes := list Byte.byte.

Inductive ArchiveFormat := ZIP | TAR | TAR_GZ | TAR_BZ2 | TAR_XZ | GZIP.

(** The value of each member of the enumeration. *)
Definition format_value (f : ArchiveFormat) : string :=
  match f with
  | ZIP => "zip"
  | TAR => "tar"
  | TAR_GZ => "tar.gz"
  | TAR_BZ2 => "tar.bz2"
  | TAR_XZ => "tar.xz"
  | GZIP => "gz"
  end.

Global Instance ArchiveFormat_eq_dec : EqDecision ArchiveFormat.
Proof. solve_decision. Defined.

(** A calendar time as a 6-tuple (year, month, day, hour, minute, second). *)
Definition date6 : Type := nat * nat * nat * nat * nat * nat.

(** [datetime] values are kept as the call that makes them. *)
Inductive datetime :=
  | datetime_of (d : date6)
  | fromtimestamp (mtime : Z).

Record ArchiveEntry := {
  entry_name : string;
  size : nat;
  compressed_size : nat;
  modified : option datetime;
  is_dir : bool;
  is_file : bool;
  mode : nat
}.

Record ArchiveInfo := {
  info_path : PurePath;
  info_format : ArchiveFormat;
  info_size : nat;
  entries : list ArchiveEntry
}.

(** Exceptions: [ArchiveError] is the program's own, the others are raised
    by the collaborators and pass through the program unchanged. *)
Inductive exn :=
  | ArchiveError (msg : string)
  | KeyError (member : string)
  | FileNotFoundError (file : string)
  | ValueError
  | IndexError
  | BadZipFile
  | ReadError
  | BadGzipFile.

Inductive result (A : Type) :=
  | Ok (a : A)
  | Raise (e : exn).
Arguments Ok {A} a.
Arguments Raise {A} e.

(** ** The filesystem and what files hold

    A regular file holds a well-formed zip container, a well-formed tar
    container under an outer compression, a gzip stream, or other bytes.
    Directories are implicit, and failures of the operating system
    (permissions, full disk, a directory in the way) are not modelled. *)

Inductive compression := NoCompression | Gz | Bz2 | Xz.

Global Instance compression_eq_dec : EqDecision compression.
Proof. solve_decision. Defined.

Record ZipInfo := {
  filename : string;
  file_data : bytes;
  compress_size : nat;
  date_time : date6
}.

Inductive tartype := REGTYPE | DIRTYPE | FIFOTYPE | CHRTYPE | BLKTYPE.

Record TarInfo := {
  tar_name : string;
  tar_data : bytes;
  mtime : Z;
  tar_mode : nat;
  type : tartype
}.

Inductive file :=
  | Bytes (data : bytes)
  | ZipFile (filelist : list ZipInfo)
  | TarFile (comp : compression) (members : list TarInfo)
  | GzipFile (payload : bytes)
  | Damaged.

Abbreviation filesystem := (gmap string file).

(** What the program takes from its host: the clock, the size of a deflate
    stream, [os.stat], and the byte image of a container file. *)
Record Host := {
  localtime_now : date6;
  deflated_size : bytes → nat;
  st_mtime : string → Z;
  st_mode : string → nat;
  localtime : Z → date6;
  image : file → bytes
}.

(** What the host knows about directories, which the map of files does
    not hold: whether a path is one, and what [rglob("*")] yields below it,
    in the order the host yields it. *)
Record Tree := {
  path_is_dir : PurePath → bool;
  path_rglob : PurePath → list PurePath
}.

(** [p.is_file()] *)
Definition path_is_file (p : PurePath) (fs : filesystem) : bool :=
  bool_decide (is_Some (fs !! str p)).

Definition raw_bytes (host : Host) (f : file) : bytes :=
  match f with
  | Bytes d => d
  | _ => image host f
  end.

(** ** Computations that change the filesystem and may raise *)

Definition M (A : Type) : Type := filesystem → filesystem * result A.

Definition ret {A} (a : A) : M A := λ fs, (fs, Ok a).
Definition raise {A} (e : exn) : M A := λ fs, (fs, Raise e).
Definition bind {A B} (c : M A) (k : A → M B) : M B :=
  λ fs, match c fs with
        | (fs', Ok a) => k a fs'
        | (fs', Raise e) => (fs', Raise e)
        end.
(** A computation that only reads the filesystem. *)
Definition reading {A} (r : filesystem → result A) : M A := λ fs, (fs, r fs).
(** [open(p, "wb")] followed by writing [f]'s content. *)
Definition write_file (p : string) (f : file) : M unit :=
  λ fs, (<[p := f]> fs, Ok tt).

Notation "'let*' x ':=' c 'in' k" := (bind c (λ x, k))
  (at level 10, x name, c at level 100, k at level 200).
Notation "c ';;' k" := (bind c (λ _, k))
  (at level 100, k at level 200, right associativity).

(** Sequencing of results alone. *)
Definition and_then {A B} (r : result A) (k : A → result B) : result B :=
  match r with
  | Ok a => k a
  | Raise e => Raise e
  end.
Notation "'let?' x ':=' r 'in' k" := (and_then r (λ x, k))
  (at level 10, x name, r at level 100, k at level 200).

(** [for x in xs: body(x)] *)
Fixpoint for_each {A} (xs : list A) (body : A → M unit) : M unit :=
  match xs with
  | [] => ret tt
  | x :: xs' => body x ;; for_each xs' body
  end.

(** ** The zip container library *)
Module zipfile.

Definition file_size (zi : ZipInfo) : nat := length (file_data zi).
Definition is_dir (zi : ZipInfo) : bool := endswith (filename zi) "/".

(** [ZipFile(path, "r")]: the directory of the container. *)
Definition open_r (p : PurePath) (fs : filesystem) : result (list ZipInfo) :=
  match fs !! str p with
  | None => Raise (FileNotFoundError (str p))
  | Some (ZipFile l) => Ok l
  | Some _ => Raise BadZipFile
  end.

Definition namelist (zf : list ZipInfo) : list string := filename <$> zf.

(** [getinfo]: of several members of one name the last one is found. *)
Definition getinfo (zf : list ZipInfo) (name : string) : result ZipInfo :=
  match List.find (λ zi, String.eqb (filename zi) name) (rev zf) with
  | Some zi => Ok zi
  | None => Raise (KeyError name)
  end.

Definition read (zf : list ZipInfo) (name : string) : result bytes :=
  match getinfo zf name with
  | Ok zi => Ok (file_data zi)
  | Raise e => Raise e
  end.

(** Where a member lands: rooted, empty, ["."] and [".."] components of
    its name are dropped. *)
Definition targetpath (dest : string) (member : string) : string :=
  let arcname :=
    String.concat "/"
      (filter (λ x, x ≠ "" ∧ x ≠ "." ∧ x ≠ "..") (split "/"%char member)) in
  normpath (os_path_join dest arcname).

Definition extract (zf : list ZipInfo) (member : string) (dest : PurePath)
  : M unit :=
  match getinfo zf member with
  | Raise e => raise e
  | Ok zi =>
      if is_dir zi then ret tt
      else write_file (targetpath (str dest) (filename zi))
                      (Bytes (file_data zi))
  end.

Definition extractall (zf : list ZipInfo) (dest : PurePath) : M unit :=
  for_each (namelist zf) (λ n, extract zf n dest).

(** [ZipInfo(filename)] ends the name at its first NUL. *)
Definition writestr (host : Host) (zf : list ZipInfo)
    (arcname : string) (data : bytes) : list ZipInfo :=
  zf ++ [{| filename := upto_nul arcname;
            file_data := data;
            compress_size := deflated_size host data;
            date_time := localtime_now host |}].

(** [write(src, arcname)]: the file [src] stored under the normalised
    [arcname]. *)
Definition write (host : Host) (zf : list ZipInfo)
    (src : PurePath) (arcname : string) (fs : filesystem)
  : result (list ZipInfo) :=
  match fs !! str src with
  | None => Raise (FileNotFoundError (str src))
  | Some f =>
      let data := raw_bytes host f in
      Ok (zf ++ [{| filename := upto_nul (lstrip_slash (normpath arcname));
                    file_data := data;
                    compress_size := deflated_size host data;
                    date_time := localtime host (st_mtime host (str src)) |}])
  end.

End zipfile.

(** ** The tar container library (links are not modelled) *)
Module tarfile.

Definition isdir (ti : TarInfo) : bool :=
  match type ti with DIRTYPE => true | _ => false end.
Definition isfile (ti : TarInfo) : bool :=
  match type ti with REGTYPE => true | _ => false end.
Definition tar_size (ti : TarInfo) : nat := length (tar_data ti).

(** The compression a mode string selects; [None] is the transparent
    choice of the plain read mode. *)
Definition read_mode (mode : string) : result (option compression) :=
  if String.eqb mode "r" then Ok None
  else if String.eqb mode "r:gz" then Ok (Some Gz)
  else if String.eqb mode "r:bz2" then Ok (Some Bz2)
  else if String.eqb mode "r:xz" then Ok (Some Xz)
  else Raise ValueError.

Definition write_mode (mode : string) : result compression :=
  if String.eqb mode "w" then Ok NoCompression
  else if String.eqb mode "w:gz" then Ok Gz
  else if String.eqb mode "w:bz2" then Ok Bz2
  else if String.eqb mode "w:xz" then Ok Xz
  else Raise ValueError.

(** [tarfile.open(path, mode)] for reading, then [getmembers()]. *)
Definition open_r (p : PurePath) (mode : string) (fs : filesystem)
  : result (list TarInfo) :=
  match read_mode mode with
  | Raise e => Raise e
  | Ok want =>
      match fs !! str p with
      | None => Raise (FileNotFoundError (str p))
      | Some (TarFile c l) =>
          match want with
          | None => Ok l
          | Some c' => if bool_decide (c = c') then Ok l else Raise ReadError
          end
      | Some _ => Raise ReadError
      end
  end.

(** [getmember]: trailing slashes of the asked name are dropped, and the
    last member of that name is found. *)
Definition getmember (tf : list TarInfo) (name : string) : result TarInfo :=
  match List.find (λ ti, String.eqb (rstrip_slash name) (tar_name ti)) (rev tf) with
  | Some ti => Ok ti
  | None => Raise (KeyError name)
  end.

(** [extractfile]: [None] for a member without data of its own. *)
Definition extractfile (ti : TarInfo) : option bytes :=
  if isfile ti then Some (tar_data ti) else None.

(** Where a member lands: below [dest], trailing slashes dropped. *)
Definition targetpath (dest : string) (member : string) : string :=
  rstrip_slash (os_path_join dest member).

Definition extract_member (ti : TarInfo) (dest : PurePath) : M unit :=
  if isfile ti
  then write_file (targetpath (str dest) (tar_name ti)) (Bytes (tar_data ti))
  else ret tt.

Definition extract (tf : list TarInfo) (member : string) (dest : PurePath)
  : M unit :=
  match getmember tf member with
  | Raise e => raise e
  | Ok ti => extract_member ti dest
  end.

Definition extractall (tf : list TarInfo) (dest : PurePath) : M unit :=
  for_each tf (λ ti, extract_member ti dest).

(** [TarInfo(name)] with its defaults, the size set to the payload's,
    then [addfile]. *)
Definition addfile_bytes (tf : list TarInfo) (arcname : string) (src : bytes)
  : list TarInfo :=
  tf ++ [{| tar_name := upto_nul arcname; tar_data := src; mtime := 0;
            tar_mode := 420; type := REGTYPE |}].

(** [add(src, arcname)]: the archive itself is skipped. *)
Definition add (host : Host) (self_name : string) (tf : list TarInfo)
    (src : PurePath) (arcname : string) (fs : filesystem)
  : result (list TarInfo) :=
  if String.eqb (str src) self_name then Ok tf
  else
    match fs !! str src with
    | None => Raise (FileNotFoundError (str src))
    | Some f =>
        Ok (tf ++ [{| tar_name := upto_nul (lstrip_slash arcname);
                      tar_data := raw_bytes host f;
                      mtime := st_mtime host (str src);
                      tar_mode := st_mode host (str src);
                      type := REGTYPE |}])
    end.

End tarfile.

(** ** The gzip codec *)
Module gzip.

(** [gzip.open(path, "rb")] needs the file to exist. *)
Definition open_r (p : PurePath) (fs : filesystem) : result unit :=
  match fs !! str p with
  | None => Raise (FileNotFoundError (str p))
  | Some _ => Ok tt
  end.

(** Reading a whole stream; an empty file reads as no data. *)
Definition read (p : PurePath) (fs : filesystem) : result bytes :=
  match fs !! str p with
  | None => Raise (FileNotFoundError (str p))
  | Some (GzipFile d) => Ok d
  | Some (Bytes []) => Ok []
  | Some _ => Raise BadGzipFile
  end.

End gzip.

(** ** The read facade *)
Module Archive.

Record t := { path : PurePath; format : ArchiveFormat }.

Definition _detect_format (path : PurePath) : result ArchiveFormat :=
  let name := lower (name path) in
  if endswith name ".zip" then Ok ZIP
  else if endswith name ".tar.gz" || endswith name ".tgz" then Ok TAR_GZ
  else if endswith name ".tar.bz2" || endswith name ".tbz2" then Ok TAR_BZ2
  else if endswith name ".tar.xz" || endswith name ".txz" then Ok TAR_XZ
  else if endswith name ".tar" then Ok TAR
  else if endswith name ".gz" then Ok GZIP
  else Raise (ArchiveError ("Unknown archive format: " +:+ name)).

(** [Archive(path)], the argument given as the parsed [Path(path)]. *)
Definition __init__ (path : PurePath) : result t :=
  let? format := _detect_format path in
  Ok {| path := path; format := format |}.

Definition is_tar (f : ArchiveFormat) : bool :=
  bool_decide (f ∈ [TAR; TAR_GZ; TAR_BZ2; TAR_XZ]).

Definition _tar_mode (self : t) (base : string) : string :=
  if bool_decide (format self = TAR_GZ) then base +:+ ":gz"
  else if bool_decide (format self = TAR_BZ2) then base +:+ ":bz2"
  else if bool_decide (format self = TAR_XZ) then base +:+ ":xz"
  else base.

Definition zip_entry (info : ZipInfo) : ArchiveEntry :=
  {| entry_name := filename info;
     size := zipfile.file_size info;
     compressed_size := compress_size info;
     modified := Some (datetime_of (date_time info));
     is_dir := zipfile.is_dir info;
     is_file := negb (zipfile.is_dir info);
     mode := 0 |}.

Definition tar_entry (info : TarInfo) : ArchiveEntry :=
  {| entry_name := tar_name info;
     size := tarfile.tar_size info;
     compressed_size := 0;
     modified := Some (fromtimestamp (mtime info));
     is_dir := tarfile.isdir info;
     is_file := tarfile.isfile info;
     mode := tar_mode info |}.

Definition list (self : t) (fs : filesystem) : result (list ArchiveEntry) :=
  if bool_decide (format self = ZIP) then
    let? zf := zipfile.open_r (path self) fs in
    Ok (zip_entry <$> zf)
  else if is_tar (format self) then
    let mode := _tar_mode self "r" in
    let? tf := tarfile.open_r (path self) mode fs in
    Ok (tar_entry <$> tf)
  else Ok [].

(** The loop over the requested members: each is extracted, then its
    path is appended. *)
Fixpoint extract_members (extract1 : string → M unit) (dest : PurePath)
    (members : Datatypes.list string) (extracted : Datatypes.list PurePath)
  : M (Datatypes.list PurePath) :=
  match members with
  | [] => ret extracted
  | m :: members' =>
      extract1 m ;;
      extract_members extract1 dest members' (extracted ++ [joinpath dest m])
  end.

(** [extract(dest, members)]; [dest.mkdir] has nothing to do where
    directories are implicit.  An empty [members] is as false as [None]. *)
Definition extract (self : t) (dest : PurePath)
    (members : option (Datatypes.list string))
  : M (Datatypes.list PurePath) :=
  if bool_decide (format self = ZIP) then
    let* zf := reading (zipfile.open_r (path self)) in
    match members with
    | Some ((_ :: _) as members) =>
        extract_members (λ m, zipfile.extract zf m dest) dest members []
    | _ =>
        zipfile.extractall zf dest ;;
        ret (joinpath dest <$> zipfile.namelist zf)
    end
  else if is_tar (format self) then
    let mode := _tar_mode self "r" in
    let* tf := reading (tarfile.open_r (path self) mode) in
    match members with
    | Some ((_ :: _) as members) =>
        extract_members (λ m, tarfile.extract tf m dest) dest members []
    | _ =>
        tarfile.extractall tf dest ;;
        ret ((λ m, joinpath dest (tar_name m)) <$> tf)
    end
  else if bool_decide (format self = GZIP) then
    let out_path := joinpath dest (stem (path self)) in
    reading (gzip.open_r (path self)) ;;
    write_file (str out_path) (Bytes []) ;;
    let* data := reading (gzip.read (path self)) in
    write_file (str out_path) (Bytes data) ;;
    ret [out_path]
  else ret [].

(** [extract(dest, [name])[0]] *)
Definition extract_file (self : t) (name : string) (dest : PurePath)
  : M PurePath :=
  let* extracted := extract self dest (Some [name]) in
  match extracted with
  | p :: _ => ret p
  | [] => raise IndexError
  end.

Definition read (self : t) (name : string) (fs : filesystem) : result bytes :=
  if bool_decide (format self = ZIP) then
    let? zf := zipfile.open_r (path self) fs in
    zipfile.read zf name
  else if is_tar (format self) then
    let mode := _tar_mode self "r" in
    let? tf := tarfile.open_r (path self) mode fs in
    let? member := tarfile.getmember tf name in
    match tarfile.extractfile member with
    | Some f => Ok f
    | None => Raise (ArchiveError ("Cannot read " +:+ name))
    end
  else Raise (ArchiveError ("Cannot read " +:+ name)).

(** [info()]: the size is that of the archive file itself. *)
Definition info (host : Host) (self : t) (fs : filesystem)
  : result ArchiveInfo :=
  let? size :=
    match fs !! str (path self) with
    | Some f => Ok (length (raw_bytes host f))
    | None => Raise (FileNotFoundError (str (path self)))
    end in
  let? entries := list self fs in
  Ok {| info_path := path self; info_format := format self;
        info_size := size; entries := entries |}.

End Archive.

(** ** The write facade *)
Module ArchiveBuilder.

(** A queued addition is a byte payload or the path of a file. *)
Inductive source :=
  | from_bytes (data : bytes)
  | from_path (p : PurePath).

Record t := {
  path : PurePath;
  format : ArchiveFormat;
  _files : list (source * string)
}.

Definition _detect_format (path : PurePath) : ArchiveFormat :=
  let name := lower (name path) in
  if endswith name ".zip" then ZIP
  else if endswith name ".tar.gz" || endswith name ".tgz" then TAR_GZ
  else if endswith name ".tar.bz2" then TAR_BZ2
  else if endswith name ".tar.xz" then TAR_XZ
  else if endswith name ".tar" then TAR
  else ZIP.

(** [ArchiveBuilder(path, format)]; every member of the enumeration is a
    non-empty string, so a given format is never replaced. *)
Definition __init__ (path : PurePath) (format : option ArchiveFormat) : t :=
  {| path := path;
     format := match format with
               | Some f => f
               | None => _detect_format path
               end;
     _files := [] |}.

Definition append (self : t) (item : source * string) : t :=
  {| path := path self; format := format self;
     _files := _files self ++ [item] |}.


(** The loop of [add_dir] over what [rglob] found: the builder as the loop
    leaves it, and the exception that stopped it, if any. *)
Fixpoint add_dir_walk (self : t) (p : PurePath) (base_arcname : string)
    (fs : filesystem) (found : list PurePath) : t * option exn :=
  match found with
  | [] => (self, None)
  | f :: found' =>
      if path_is_file f fs then
        match relative_to f p with
        | Some rel =>
            add_dir_walk
              (append self (from_path f, str (joinpaths (Path base_arcname) rel)))
              p base_arcname fs found'
        | None => (self, Some ValueError)
        end
      else add_dir_walk self p base_arcname fs found'
  end.

Definition add_dir (tree : Tree) (self : t) (p : PurePath)
    (arcname : option string) (fs : filesystem) : t * option exn :=
  let base_arcname :=
    match arcname with
    | Some a => if bool_decide (a = "") then name p else a
    | None => name p
    end in
  add_dir_walk self p base_arcname fs (path_rglob tree p).

Definition add_bytes (self : t) (data : bytes) (arcname : string) : t :=
  append self (from_bytes data, arcname).

(** The body of the zip [with] block: the members written so far, and
    the exception that stopped the loop, if any. *)
Fixpoint zip_commit (host : Host) (files : list (source * string))
    (zf : list ZipInfo) (fs : filesystem) : list ZipInfo * option exn :=
  match files with
  | [] => (zf, None)
  | (from_bytes src, arcname) :: files' =>
      zip_commit host files' (zipfile.writestr host zf arcname src) fs
  | (from_path src, arcname) :: files' =>
      match zipfile.write host zf src arcname fs with
      | Ok zf' => zip_commit host files' zf' fs
      | Raise e => (zf, Some e)
      end
  end.

Fixpoint tar_commit (host : Host) (self_name : string)
    (files : list (source * string))
    (tf : list TarInfo) (fs : filesystem) : list TarInfo * option exn :=
  match files with
  | [] => (tf, None)
  | (from_bytes src, arcname) :: files' =>
      tar_commit host self_name files' (tarfile.addfile_bytes tf arcname src) fs
  | (from_path src, arcname) :: files' =>
      match tarfile.add host self_name tf src arcname fs with
      | Ok tf' => tar_commit host self_name files' tf' fs
      | Raise e => (tf, Some e)
      end
  end.

(** Writing the container.  Opening for writing leaves an empty file;
    the members are on disk when the writer is closed.  A zip writer is
    closed on every way out of its block, a tar writer that is left by an
    exception leaves an unfinished file. *)
Definition write_container (host : Host) (self : t) : M unit :=
  if bool_decide (format self = ZIP) then
    λ fs,
      let fs1 := <[str (path self) := Bytes []]> fs in
      match zip_commit host (_files self) [] fs1 with
      | (zf, None) => (<[str (path self) := ZipFile zf]> fs1, Ok tt)
      | (zf, Some e) => (<[str (path self) := ZipFile zf]> fs1, Raise e)
      end
  else
    let mode :=
      if bool_decide (format self = TAR_GZ) then "w:gz"
      else if bool_decide (format self = TAR_BZ2) then "w:bz2"
      else if bool_decide (format self = TAR_XZ) then "w:xz"
      else "w" in
    match tarfile.write_mode mode with
    | Raise e => raise e
    | Ok comp =>
        λ fs,
          let fs1 := <[str (path self) := Bytes []]> fs in
          match tar_commit host (str (path self)) (_files self) [] fs1 with
          | (tf, None) => (<[str (path self) := TarFile comp tf]> fs1, Ok tt)
          | (_, Some e) => (<[str (path self) := Damaged]> fs1, Raise e)
          end
    end.

Definition build (host : Host) (self : t) : M Archive.t :=
  write_container host self ;;
  reading (λ _, Archive.__init__ (path self)).

End ArchiveBuilder.




(** [extract(archive_path, dest)] *)
Definition extract (archive_path dest : string) : M (list PurePath) :=
  let* archive := reading (λ _, Archive.__init__ (Path archive_path)) in
  Archive.extract archive (Path dest) None.

(** ** Vocabulary of the statements *)

(** The suffixes the read side knows, in the order it tries them. *)
Definition suffix_table : list (string * ArchiveFormat) :=
  [ (".zip", ZIP);
    (".tar.gz", TAR_GZ); (".tgz", TAR_GZ);
    (".tar.bz2", TAR_BZ2); (".tbz2", TAR_BZ2);
    (".tar.xz", TAR_XZ); (".txz", TAR_XZ);
    (".tar", TAR);
    (".gz", GZIP) ].

(** [name] ends, whatever the case of its letters, with [suf]. *)
Definition matches_suffix (name suf : string) : Prop :=
  ∃ stem tail, name = stem +:+ tail ∧ lower tail = suf.

(** Detection by precedence, in the words of the specification: the format
    of the first suffix of the table that the name matches. *)
Definition detected_by_precedence (name : string) (f : ArchiveFormat) : Prop :=
  ∃ i suf,
    suffix_table !! i = Some (suf, f) ∧ matches_suffix name suf ∧
    ∀ j suf' f', j < i → suffix_table !! j = Some (suf', f') →
                 ¬ matches_suffix name suf'.


(** The builder after [add_bytes(data, name)] for each pair in turn. *)
Definition queue_bytes (builder : ArchiveBuilder.t)
    (payloads : list (string * bytes)) : ArchiveBuilder.t :=
  fold_left (λ bld '(n, d), ArchiveBuilder.add_bytes bld d n) payloads builder.





(** The queue entry, the zip member and the tar member of a byte payload. *)
Definition zip_member (host : Host) (x : string * bytes) : ZipInfo :=
  {| filename := upto_nul x.1; file_data := x.2;
     compress_size := deflated_size host x.2;
     date_time := localtime_now host |}.

Definition tar_member (x : string * bytes) : TarInfo :=
  {| tar_name := upto_nul x.1; tar_data := x.2; mtime := 0;
     tar_mode := 420; type := REGTYPE |}.




(** A host for the examples. *)
Definition demo_host : Host :=
  {| localtime_now := (2024, 1, 1, 0, 0, 0);
     deflated_size := λ d, length d;
     st_mtime := λ _, 0%Z;
     st_mode := λ _, 420;
     localtime := λ _, (1970, 1, 1, 0, 0, 0);
     image := λ _, [] |}.

(** A bytes literal. *)
Definition bytes_of (s : string) : bytes := String.list_byte_of_string s.

(** ** Sample archives *)

(** The scenario of the specification: [out.zip] from [b"Hello"] as
    [a.txt] and [b"World"] as [b.txt]. *)
Definition hello_world : list (string * bytes) :=
  [("a.txt", bytes_of "Hello"); ("b.txt", bytes_of "World")].


Definition zip_archive : Archive.t :=
  {| Archive.path := Path "out.zip"; Archive.format := ZIP |}.
Definition zip_fs : filesystem :=
  {[ "out.zip" := ZipFile (zip_member demo_host <$> hello_world) ]}.

(** A tar archive with a directory entry and a file below it. *)
Definition sample_tar : list TarInfo :=
  [ {| tar_name := "docs"; tar_data := []; mtime := 0; tar_mode := 493;
       type := DIRTYPE |};
    tar_member ("docs/a.txt", bytes_of "Hello") ].
Definition tar_archive : Archive.t :=
  {| Archive.path := Path "out.tar.gz"; Archive.format := TAR_GZ |}.
Definition tar_fs : filesystem :=
  {[ "out.tar.gz" := TarFile Gz sample_tar ]}.


(** ** Vocabulary of the further statements *)







(** ** Sample files, builders and directories *)

(** A filesystem with one plain file. *)
Definition source_fs : filesystem :=
  {[ "notes/todo.txt" := Bytes (bytes_of "milk") ]}.





(** The directory [notes] with a subdirectory and two files. *)
Definition notes_tree : Tree :=
  {| path_is_dir := λ p, bool_decide (str p = "notes");
     path_rglob := λ p,
       if bool_decide (str p = "notes")
       then [Path "notes/sub"; Path "notes/todo.txt"; Path "notes/sub/x.bin"]
       else [] |}.
Definition notes_fs : filesystem :=
  {[ "notes/todo.txt" := Bytes (bytes_of "milk");
     "notes/sub/x.bin" := Bytes [Byte.x01; Byte.x02] ]}.

(** * Properties *)

(** ** Strings *)

Lemma chars_app (s t : string) : chars (s +:+ t) = chars s ++ chars t.
Proof. induction s as [|c s IH]; simpl; [done | by rewrite <- IH]. Qed.

Lemma lower_app (s t : string) : lower (s +:+ t) = lower s +:+ lower t.
Proof. induction s as [|c s IH]; simpl; [done | by rewrite IH]. Qed.

Lemma lower_app_inv (s u v : string) :
  lower s = u +:+ v → ∃ s1 s2, s = s1 +:+ s2 ∧ lower s1 = u ∧ lower s2 = v.
Proof.
  revert s. induction u as [|c u IH]; intros s H.
  - exists "", s. by simpl in *.
  - destruct s as [|a s]; simpl in H; [discriminate|].
    injection H as Hc Hs. destruct (IH _ Hs) as (s1 & s2 & -> & <- & <-).
    exists (String a s1), s2. simpl. by rewrite Hc.
Qed.

Lemma chars_inj (s t : string) : chars s = chars t → s = t.
Proof.
  intros H. rewrite <- (String.string_of_list_ascii_of_string s),
    <- (String.string_of_list_ascii_of_string t). unfold chars in H. by rewrite H.
Qed.

Lemma starts_with_spec (p s : list ascii) :
  starts_with p s = true ↔ ∃ t, s = p ++ t.
Proof.
  revert s. induction p as [|a p IH]; intros s; simpl.
  - split; eauto.
  - destruct s as [|c s].
    + split; [done | intros [t Ht]; discriminate].
    + rewrite andb_true_iff, IH, Ascii.eqb_eq. split.
      * intros [-> [t ->]]. eauto.
      * intros [t Ht]. injection Ht as -> ->. eauto.
Qed.

Lemma endswith_spec (s suf : string) :
  endswith s suf = true ↔ ∃ p, s = p +:+ suf.
Proof.
  unfold endswith. rewrite starts_with_spec. split.
  - intros [t Ht]. exists (String.string_of_list_ascii (rev t)).
    apply chars_inj. rewrite chars_app. unfold chars at 2.
    rewrite String.list_ascii_of_string_of_list_ascii.
    apply (f_equal (@rev ascii)) in Ht.
    by rewrite rev_involutive, rev_app_distr, rev_involutive in Ht.
  - intros [p ->]. exists (rev (chars p)). by rewrite chars_app, rev_app_distr.
Qed.

Lemma endswith_lower (name suf : string) :
  endswith (lower name) suf = true ↔ matches_suffix name suf.
Proof.
  rewrite endswith_spec. split.
  - intros [p Hp]. destruct (lower_app_inv _ _ _ Hp) as (s1 & s2 & -> & _ & H2).
    by exists s1, s2.
  - intros (stem & tail & -> & <-). exists (lower stem). apply lower_app.
Qed.

Lemma endswith_lower_false (name suf : string) :
  endswith (lower name) suf = false ↔ ¬ matches_suffix name suf.
Proof.
  rewrite <- endswith_lower. destruct (endswith (lower name) suf); naive_solver.
Qed.

(** ** Format detection *)

Ltac try_suffix suf :=
  match goal with
  | |- context [decide (endswith ?n suf = true)] =>
      let E := fresh "E" in
      destruct (decide (endswith n suf = true)) as [E|E];
      [rewrite E, ?orb_true_r; reflexivity
      |apply not_true_is_false in E; rewrite E; cbn [orb]]
  end.

Lemma detect_format_find (p : PurePath) :
  Archive._detect_format p =
  match list_find (λ e, endswith (lower (name p)) e.1 = true) suffix_table with
  | Some (_, (_, f)) => Ok f
  | None => Raise (ArchiveError ("Unknown archive format: " +:+ lower (name p)))
  end.
Proof.
  unfold Archive._detect_format, suffix_table. cbn [list_find fst].
  try_suffix ".zip". try_suffix ".tar.gz". try_suffix ".tgz".
  try_suffix ".tar.bz2". try_suffix ".tbz2". try_suffix ".tar.xz".
  try_suffix ".txz". try_suffix ".tar". try_suffix ".gz". reflexivity.
Qed.

(** Evaluating [endswith] on a name whose end is known. *)
Ltac known_suffix :=
  unfold endswith; rewrite ?chars_app, ?rev_app_distr; simpl.

Lemma variant_detected (p : PurePath) (suf : string) (f : ArchiveFormat) :
  (suf, f) ∈ suffix_table → matches_suffix (name p) suf →
  (suf = ".gz" → ¬ matches_suffix (name p) ".tar.gz") →
  Archive.__init__ p = Ok {| Archive.path := p; Archive.format := f |}.
Proof.
  intros Hin Hm Hgz. unfold Archive.__init__, Archive._detect_format.
  assert (suf = ".gz" → endswith (lower (name p)) ".tar.gz" = false) as Htg
    by (intros; apply endswith_lower_false; auto).
  apply endswith_lower, endswith_spec in Hm as [q Hq].
  unfold suffix_table in Hin.
  repeat (apply elem_of_cons in Hin as [[= -> ->]|Hin]);
    [..|by apply elem_of_nil in Hin];
    try rewrite (Htg eq_refl); rewrite Hq; known_suffix; reflexivity.
Qed.

Lemma detect_format_first_match (p : PurePath) :
  (∀ f, Archive.__init__ p = Ok {| Archive.path := p; Archive.format := f |}
        ↔ detected_by_precedence (name p) f) ∧
  (Archive.__init__ p
     = Raise (ArchiveError ("Unknown archive format: " +:+ lower (name p)))
        ↔ ∀ suf f, (suf, f) ∈ suffix_table → ¬ matches_suffix (name p) suf) ∧
  ((∃ f, Archive.__init__ p = Ok {| Archive.path := p; Archive.format := f |})
   ∨ Archive.__init__ p
     = Raise (ArchiveError ("Unknown archive format: " +:+ lower (name p)))).
Proof.
  unfold Archive.__init__. rewrite detect_format_find.
  destruct (list_find _ suffix_table) as [[i [suf f0]]|] eqn:Hfind; simpl.
  - apply list_find_Some in Hfind as (Hi & Hm & Hprev). simpl in Hm.
    apply endswith_lower in Hm. split_and!.
    + intros f. split.
      * intros [= <-]. exists i, suf. split_and!; [done..|].
        intros j suf' f' Hj Hl. apply endswith_lower_false.
        apply not_true_is_false. by apply (Hprev j (suf', f')).
      * intros (i' & suf' & Hi' & Hm' & Hprev').
        destruct (Nat.lt_total i i') as [Hlt|[->|Hlt]].
        -- exfalso. by apply (Hprev' i suf f0).
        -- rewrite Hi in Hi'. by injection Hi' as _ ->.
        -- exfalso. apply endswith_lower in Hm'. by apply (Hprev i' (suf', f)).
    + split; [done|]. intros Hno. exfalso. apply (Hno suf f0); [|done].
      by eapply list_elem_of_lookup_2.
    + left. by exists f0.
  - split_and!.
    + intros f. split; [done|]. intros (i & suf & Hi & Hm & _). exfalso.
      apply endswith_lower in Hm.
      eapply list_find_None in Hfind. eapply Forall_lookup_1 in Hfind; [|exact Hi].
      by apply Hfind.
    + split; [|done]. intros _ suf f Hin. apply endswith_lower_false.
      apply list_find_None in Hfind. apply not_true_is_false.
      by apply (proj1 (Forall_forall _ _) Hfind (suf, f)).
    + by right.
Qed.

(** C2. Constructing an [Archive] resolves the format as the first suffix,
    in the order .zip; .tar.gz/.tgz; .tar.bz2/.tbz2; .tar.xz/.txz; .tar; .gz,
    that the file name ends with, letters compared without regard to case;
    every suffix variant gives its own tag (for .gz, when the name is not a
    .tar.gz name, which comes first); and a name that ends with none of
    them makes the construction fail with the unknown-format error. *)
Theorem detect_format_precedence (p : PurePath) :
  (∀ f, Archive.__init__ p = Ok {| Archive.path := p; Archive.format := f |}
        ↔ detected_by_precedence (name p) f) ∧
  (Archive.__init__ p
     = Raise (ArchiveError ("Unknown archive format: " +:+ lower (name p)))
        ↔ ∀ suf f, (suf, f) ∈ suffix_table → ¬ matches_suffix (name p) suf) ∧
  ((∃ f, Archive.__init__ p = Ok {| Archive.path := p; Archive.format := f |})
   ∨ Archive.__init__ p
     = Raise (ArchiveError ("Unknown archive format: " +:+ lower (name p)))) ∧
  (∀ suf f, (suf, f) ∈ suffix_table → matches_suffix (name p) suf →
            (suf = ".gz" → ¬ matches_suffix (name p) ".tar.gz") →
            Archive.__init__ p = Ok {| Archive.path := p; Archive.format := f |}).
Proof.
  destruct (detect_format_first_match p) as (H1 & H2 & H3).
  refine (conj H1 (conj H2 (conj H3 _))).
  intros suf f Hin Hm Hgz. by apply (variant_detected p suf f).
Qed.


(** C3, where the code departs from it.  The write side does not know the
    suffixes .tbz2, .txz and .gz that the read side knows: on such a name
    the builder falls back to the zip format while an [Archive] on the same
    path is given the tar.bz2, tar.xz or gzip format. *)
Theorem builder_detect_misses_aliases (p : PurePath) :
  (matches_suffix (name p) ".tbz2" →
     ArchiveBuilder._detect_format p = ZIP ∧
     Archive._detect_format p = Ok TAR_BZ2) ∧
  (matches_suffix (name p) ".txz" →
     ArchiveBuilder._detect_format p = ZIP ∧
     Archive._detect_format p = Ok TAR_XZ) ∧
  (matches_suffix (name p) ".gz" → ¬ matches_suffix (name p) ".tar.gz" →
     ArchiveBuilder._detect_format p = ZIP ∧
     Archive._detect_format p = Ok GZIP).
Proof.
  unfold Archive._detect_format, ArchiveBuilder._detect_format.
  split_and!.
  - intros Hm. apply endswith_lower, endswith_spec in Hm as [q Hq].
    rewrite Hq. by known_suffix.
  - intros Hm. apply endswith_lower, endswith_spec in Hm as [q Hq].
    rewrite Hq. by known_suffix.
  - intros Hm Hn. apply endswith_lower_false in Hn.
    apply endswith_lower, endswith_spec in Hm as [q Hq].
    rewrite Hn, Hq. by known_suffix.
Qed.

(** ** Looking members up *)








(** ** Reading *)

(** C7. For an archive of plain gzip format, [list()] returns the empty
    sequence: no synthetic entry, no error, whatever the file holds. *)
Theorem list_gzip_empty (a : Archive.t) (fs : filesystem) :
  Archive.format a = GZIP → Archive.list a fs = Ok [].
Proof. intros H. unfold Archive.list. by rewrite H. Qed.


(** ** Building *)



















(** ** Extracting *)

Lemma list_zip_inv (a : Archive.t) (fs : filesystem) (entries : list ArchiveEntry) :
  Archive.format a = ZIP → Archive.list a fs = Ok entries →
  ∃ zf, zipfile.open_r (Archive.path a) fs = Ok zf ∧
        entries = Archive.zip_entry <$> zf.
Proof.
  intros Hz. unfold Archive.list. rewrite Hz. simpl.
  destruct (zipfile.open_r _ _) as [zf|]; [|done]. intros [= <-]. eauto.
Qed.

Lemma list_tar_inv (a : Archive.t) (fs : filesystem) (entries : list ArchiveEntry) :
  Archive.is_tar (Archive.format a) = true → Archive.list a fs = Ok entries →
  ∃ tf, tarfile.open_r (Archive.path a) (Archive._tar_mode a "r") fs = Ok tf ∧
        entries = Archive.tar_entry <$> tf.
Proof.
  intros Ht. unfold Archive.list. rewrite Ht.
  destruct (bool_decide (Archive.format a = ZIP)) eqn:Hz.
  { apply bool_decide_eq_true in Hz. by rewrite Hz in Ht. }
  simpl. destruct (tarfile.open_r _ _ _) as [tf|]; [|done]. intros [= <-]. eauto.
Qed.




Lemma for_each_ok {A} (xs : list A) (body : A → M unit) (fs : filesystem) :
  (∀ x fs0, x ∈ xs → ∃ fs1, body x fs0 = (fs1, Ok tt)) →
  ∃ fs', for_each xs body fs = (fs', Ok tt).
Proof.
  revert fs. induction xs as [|x xs IH]; intros fs Hb; simpl.
  - by eexists.
  - unfold bind. destruct (Hb x fs) as [fs1 ->]; [by left|].
    apply IH. intros y fs0 Hy. apply Hb. by right.
Qed.



















(** ** The theorems at work on concrete archives *)

Ltac by_evaluation := apply (bool_decide_unpack _); vm_compute; exact I.

Lemma detect_format_precedence_witness :
  Archive.__init__ (Path "data/Backup.TGZ")
  = Ok {| Archive.path := Path "data/Backup.TGZ"; Archive.format := TAR_GZ |}.
Proof.
  apply (proj2 (proj2 (proj2 (detect_format_precedence (Path "data/Backup.TGZ"))))
           ".tgz" TAR_GZ).
  - by_evaluation.
  - exists "Backup", ".TGZ". split; reflexivity.
  - intros H. discriminate H.
Defined.

Lemma builder_detect_misses_aliases_witness :
  ArchiveBuilder._detect_format (Path "backup.tbz2") = ZIP ∧
  Archive._detect_format (Path "backup.tbz2") = Ok TAR_BZ2.
Proof.
  apply (proj1 (builder_detect_misses_aliases (Path "backup.tbz2"))).
  exists "backup", ".tbz2". split; reflexivity.
Defined.

(** What the missed alias costs: the archive that [build()] returns for
    [backup.tbz2] is a zip file that is opened as a tar.bz2 archive. *)
Example build_tbz2_unreadable :
  let fs' := <["backup.tbz2" := ZipFile (zip_member demo_host <$> hello_world)]> ∅ in
  let archive := {| Archive.path := Path "backup.tbz2"; Archive.format := TAR_BZ2 |} in
  ArchiveBuilder.build demo_host
    (queue_bytes (ArchiveBuilder.__init__ (Path "backup.tbz2") None) hello_world) ∅
  = (fs', Ok archive) ∧
  Archive.list archive fs' = Raise ReadError.
Proof. split; vm_compute; reflexivity. Qed.

Example path_examples :
  name (Path "backups/2024/Site.TAR.GZ") = "Site.TAR.GZ" ∧
  name (Path "out.zip/") = "out.zip" ∧
  name (Path "/") = "" ∧
  str (Path "a//b/./c/") = "a/b/c" ∧
  str (Path "") = "." ∧
  stem (Path "notes.gz") = "notes" ∧
  stem (Path ".gz") = ".gz" ∧
  str (joinpath (Path "D") "data/x.bin") = "D/data/x.bin" ∧
  str (joinpath (Path "D") "/etc/passwd") = "/etc/passwd".
Proof. repeat split; vm_compute; reflexivity. Qed.

Lemma list_gzip_empty_witness :
  Archive.list {| Archive.path := Path "notes.gz"; Archive.format := GZIP |} ∅
  = Ok [].
Proof. apply list_gzip_empty. reflexivity. Defined.


(** Why the names are asked to be plain: a zip member name ends at its
    first NUL, and a tar lookup drops the trailing slashes of the name it
    is asked for. *)
Example names_that_do_not_come_back :
  (let nul_name := String "a" (String zero "b") in
   let fs' := <["out.zip" := ZipFile (zip_member demo_host <$> [(nul_name, bytes_of "x")])]> ∅ in
   ArchiveBuilder.build demo_host
     (queue_bytes (ArchiveBuilder.__init__ (Path "out.zip") None)
        [(nul_name, bytes_of "x")]) ∅
   = (fs', Ok zip_archive) ∧
   Archive.list zip_archive fs'
   = Ok (Archive.zip_entry <$> [zip_member demo_host ("a", bytes_of "x")])) ∧
  (let fs' := <["out.tar" := TarFile NoCompression (tar_member <$> [("a/", bytes_of "x")])]> ∅ in
   let archive := {| Archive.path := Path "out.tar"; Archive.format := TAR |} in
   ArchiveBuilder.build demo_host
     (queue_bytes (ArchiveBuilder.__init__ (Path "out.tar") None)
        [("a/", bytes_of "x")]) ∅
   = (fs', Ok archive) ∧
   Archive.read archive "a/" fs' = Raise (KeyError "a/")).
Proof. split; split; vm_compute; reflexivity. Qed.









(** Members before a missing one are on disk when the call fails. *)
Example extract_stops_at_missing :
  Archive.extract zip_archive (Path "D") (Some ["a.txt"; "zz"; "b.txt"]) zip_fs
  = (<["D/a.txt" := Bytes (bytes_of "Hello")]> zip_fs, Raise (KeyError "zz")).
Proof. vm_compute. reflexivity. Qed.

Example extract_file_missing :
  Archive.extract_file tar_archive "zz" (Path "D") tar_fs
  = (tar_fs, Raise (KeyError "zz")).
Proof. vm_compute. reflexivity. Qed.

Example extract_file_present :
  Archive.extract_file tar_archive "docs/a.txt" (Path "D") tar_fs
  = (<["D/docs/a.txt" := Bytes (bytes_of "Hello")]> tar_fs,
     Ok (Path "D/docs/a.txt")).
Proof. vm_compute. reflexivity. Qed.

(** The second scenario of the specification: [out.tar.gz] with
    [data/x.bin], extracted to [D]. *)
Example scenario_tar_gz :
  let payload := [Byte.x01; Byte.x02; Byte.x03; Byte.x04] in
  let archive := {| Archive.path := Path "out.tar.gz"; Archive.format := TAR_GZ |} in
  let fs := <["out.tar.gz" := TarFile Gz [tar_member ("data/x.bin", payload)]]> ∅ in
  ArchiveBuilder.build demo_host
    (ArchiveBuilder.add_bytes
       (ArchiveBuilder.__init__ (Path "out.tar.gz") None) payload "data/x.bin") ∅
  = (fs, Ok archive) ∧
  Archive.extract archive (Path "D") None fs
  = (<["D/data/x.bin" := Bytes payload]> fs, Ok [Path "D/data/x.bin"]).
Proof. split; vm_compute; reflexivity. Qed.

(** * Further properties *)

(** ** What a build leaves on disk *)






(** X1. Whatever is queued and however it ends, [build()] changes no file
    but the one at its target path. *)
Theorem build_touches_only_target (host : Host) (builder : ArchiveBuilder.t)
    (fs : filesystem) (k : string) :
  k ≠ str (ArchiveBuilder.path builder) →
  (ArchiveBuilder.build host builder fs).1 !! k = fs !! k.
Proof.
  intros Hk. unfold ArchiveBuilder.build, ArchiveBuilder.write_container, bind, reading.
  destruct (ArchiveBuilder.format builder); simpl;
    (destruct (ArchiveBuilder.zip_commit _ _ _ _) as [? [?|]]
     || destruct (ArchiveBuilder.tar_commit _ _ _ _ _) as [? [?|]]);
    simpl; by rewrite !lookup_insert_ne.
Qed.

(** X2. Building twice is building once: the second [build()] truncates
    the target, writes the same container again and ends the same way. *)
Theorem build_twice (host : Host) (builder : ArchiveBuilder.t) (fs : filesystem) :
  ArchiveBuilder.build host builder (ArchiveBuilder.build host builder fs).1
  = ArchiveBuilder.build host builder fs.
Proof.
  unfold ArchiveBuilder.build, ArchiveBuilder.write_container, bind, reading.
  destruct (ArchiveBuilder.format builder); simpl;
    (destruct (ArchiveBuilder.zip_commit _ _ _ (<[_ := _]> fs)) as [? [?|]] eqn:E
     || destruct (ArchiveBuilder.tar_commit _ _ _ _ (<[_ := _]> fs)) as [? [?|]] eqn:E);
    simpl; rewrite !insert_insert_eq, E; simpl; by rewrite ?insert_insert_eq.
Qed.




(** ** Detection *)

(** X5. The format a builder infers is the format an [Archive] on the same
    path gets exactly when the name ends in .zip, .tar.gz, .tgz, .tar.bz2,
    .tar.xz or .tar; and a builder never infers the gzip format. *)
Theorem builder_agrees_with_reader (p : PurePath) :
  (Archive._detect_format p = Ok (ArchiveBuilder._detect_format p) ↔
   matches_suffix (name p) ".zip" ∨ matches_suffix (name p) ".tar.gz" ∨
   matches_suffix (name p) ".tgz" ∨ matches_suffix (name p) ".tar.bz2" ∨
   matches_suffix (name p) ".tar.xz" ∨ matches_suffix (name p) ".tar") ∧
  ArchiveBuilder._detect_format p ≠ GZIP.
Proof.
  split.
  2:{ unfold ArchiveBuilder._detect_format.
      repeat match goal with
      | |- context [if ?c then _ else _] => destruct c
      end; done. }
  rewrite <- !endswith_lower.
  unfold Archive._detect_format, ArchiveBuilder._detect_format.
  destruct (endswith (lower (name p)) ".zip") eqn:E1; [naive_solver|].
  destruct (endswith (lower (name p)) ".tar.gz") eqn:E2; [naive_solver|].
  destruct (endswith (lower (name p)) ".tgz") eqn:E3; [naive_solver|].
  destruct (endswith (lower (name p)) ".tar.bz2") eqn:E4; [naive_solver|].
  destruct (endswith (lower (name p)) ".tbz2") eqn:E5.
  { apply endswith_spec in E5 as [q Hq]. rewrite Hq. known_suffix. naive_solver. }
  destruct (endswith (lower (name p)) ".tar.xz") eqn:E6; [naive_solver|].
  destruct (endswith (lower (name p)) ".txz") eqn:E7.
  { apply endswith_spec in E7 as [q Hq]. rewrite Hq. known_suffix. naive_solver. }
  destruct (endswith (lower (name p)) ".tar") eqn:E8; [naive_solver|].
  destruct (endswith (lower (name p)) ".gz") eqn:E9; naive_solver.
Qed.

(** ** More on extraction *)





















(** ** Listing, reading and the archive file *)




(** X11. The flags of listed entries: no entry is both a directory and a
    regular file; a zip entry is exactly one of the two, is a directory
    just when its name ends with a slash, and has mode 0; a tar entry has
    compressed size 0. *)
Theorem listed_entry_flags (a : Archive.t) (entries : list ArchiveEntry)
    (e : ArchiveEntry) (fs : filesystem) :
  Archive.list a fs = Ok entries →
  e ∈ entries →
  ¬ (is_dir e = true ∧ is_file e = true) ∧
  (Archive.format a = ZIP →
     is_file e = negb (is_dir e) ∧ is_dir e = endswith (entry_name e) "/" ∧
     mode e = 0) ∧
  (Archive.is_tar (Archive.format a) = true → compressed_size e = 0).
Proof.
  intros Hl Hin.
  destruct (decide (Archive.format a = ZIP)) as [Hz|Hz].
  - destruct (list_zip_inv a fs entries Hz Hl) as (zf & Ho & ->).
    apply list_elem_of_fmap in Hin as (zi & -> & Hin). simpl.
    split_and!; [|done|by rewrite Hz].
    by destruct (zipfile.is_dir zi); intros [??].
  - destruct (Archive.is_tar (Archive.format a)) eqn:Ht.
    + destruct (list_tar_inv a fs entries Ht Hl) as (tf & Ho & ->).
      apply list_elem_of_fmap in Hin as (ti & -> & Hin). simpl.
      split_and!; [|done|done].
      unfold tarfile.isdir, tarfile.isfile. by destruct (type ti); intros [??].
    + unfold Archive.list in Hl.
      rewrite Ht, bool_decide_eq_false_2 in Hl by done.
      injection Hl as <-. by apply elem_of_nil in Hin.
Qed.

(** X9. [info()] reports what [list()] returns, with the archive's path and
    format and the size of the archive file itself; when the file is
    missing it raises [FileNotFoundError], also on a gzip archive, where
    [list()] alone would return the empty listing. *)
Theorem info_matches_list (host : Host) (a : Archive.t) (fs : filesystem) :
  (∀ i, Archive.info host a fs = Ok i →
        Archive.list a fs = Ok (entries i) ∧
        info_path i = Archive.path a ∧ info_format i = Archive.format a ∧
        ∃ f, fs !! str (Archive.path a) = Some f ∧
             info_size i = length (raw_bytes host f)) ∧
  (∀ f es, fs !! str (Archive.path a) = Some f → Archive.list a fs = Ok es →
        ∃ i, Archive.info host a fs = Ok i ∧ entries i = es) ∧
  (fs !! str (Archive.path a) = None →
        Archive.info host a fs = Raise (FileNotFoundError (str (Archive.path a))) ∧
        (Archive.format a = GZIP → Archive.list a fs = Ok [])).
Proof.
  unfold Archive.info. split_and!.
  - intros i. destruct (fs !! str (Archive.path a)) as [f|]; [|done]. simpl.
    destruct (Archive.list a fs) as [es|]; [|done]. simpl.
    intros [= <-]. simpl. split_and!; [done..|]. by exists f.
  - intros f es -> ->. simpl. eauto.
  - intros ->. split; [done|]. intros Hg. unfold Archive.list. by rewrite Hg.
Qed.




(** ** Names of files *)










(** X19. Detection looks at the last component of the path only: whatever
    directory a file name is put under, the read side and the write side
    detect what they detect for the bare name. *)
Theorem detection_ignores_directories (dir : PurePath) (n : string) :
  root (Path n) = "" → parts (Path n) ≠ [] →
  Archive._detect_format (joinpath dir n) = Archive._detect_format (Path n) ∧
  ArchiveBuilder._detect_format (joinpath dir n)
  = ArchiveBuilder._detect_format (Path n).
Proof.
  intros Hr Hp.
  assert (name (joinpath dir n) = name (Path n)) as Hname.
  { unfold joinpath. revert Hr Hp. generalize (Path n) as q. intros q Hr Hp.
    rewrite Hr. unfold name. cbn [parts].
    destruct (last (parts q)) as [x|] eqn:E; [|by apply last_None in E].
    apply last_Some in E as [l E]. rewrite E, app_assoc. by rewrite !last_snoc. }
  unfold Archive._detect_format, ArchiveBuilder._detect_format. by rewrite Hname.
Qed.


(** ** Directories and the one-shot builders *)

Lemma add_dir_walk_spec (b0 : ArchiveBuilder.t) (p : PurePath) (base : string)
    (fs : filesystem) (found : list PurePath) :
  Forall (λ f, root f = root p ∧ parts p `prefix_of` parts f) found →
  ∃ b1, ArchiveBuilder.add_dir_walk b0 p base fs found = (b1, None) ∧
        ArchiveBuilder.path b1 = ArchiveBuilder.path b0 ∧
        ArchiveBuilder.format b1 = ArchiveBuilder.format b0 ∧
        ArchiveBuilder._files b1
        = ArchiveBuilder._files b0 ++
          ((λ f, (ArchiveBuilder.from_path f,
                  str {| root := root (Path base);
                         parts := parts (Path base)
                                  ++ drop (length (parts p)) (parts f) |}))
           <$> filter (λ f, is_Some (fs !! str f)) found).
Proof.
  revert b0. induction found as [|f found IH]; intros b0 Hall; simpl.
  - exists b0. by rewrite app_nil_r.
  - apply Forall_cons in Hall as [Hf Hall]. unfold path_is_file.
    rewrite filter_cons. destruct (decide (is_Some (fs !! str f))) as [Hs|Hs].
    + rewrite bool_decide_eq_true_2 by done. unfold relative_to.
      rewrite bool_decide_eq_true_2 by done.
      destruct (IH (ArchiveBuilder.append b0
                      (ArchiveBuilder.from_path f,
                       str (joinpaths (Path base)
                              {| root := "";
                                 parts := drop (length (parts p)) (parts f) |})))
                   Hall) as (b1 & -> & Hp & Hf1 & Hfiles).
      exists b1. split_and!; [done..|].
      rewrite Hfiles. simpl. by rewrite <- app_assoc.
    + rewrite bool_decide_eq_false_2 by done. by apply IH.
Qed.

(** X14. [add_dir] queues the regular files that [rglob] yields below the
    directory, in the order yielded, and nothing for the directories among
    them; each file is queued under the base name (the given archive name,
    or the directory's own name) followed by the file's components below
    the directory.  The path and the format of the builder stay, and a
    directory without files leaves the queue as it was. *)
Theorem add_dir_queues_files (tree : Tree) (builder : ArchiveBuilder.t)
    (p : PurePath) (arcname : option string) (fs : filesystem) :
  let base := match arcname with
              | Some a => if bool_decide (a = "") then name p else a
              | None => name p
              end in
  let found := filter (λ f, is_Some (fs !! str f)) (path_rglob tree p) in
  Forall (λ f, root f = root p ∧ parts p `prefix_of` parts f)
         (path_rglob tree p) →
  ∃ builder',
    ArchiveBuilder.add_dir tree builder p arcname fs = (builder', None) ∧
    ArchiveBuilder.path builder' = ArchiveBuilder.path builder ∧
    ArchiveBuilder.format builder' = ArchiveBuilder.format builder ∧
    ArchiveBuilder._files builder'
    = ArchiveBuilder._files builder ++
      ((λ f, (ArchiveBuilder.from_path f,
              str {| root := root (Path base);
                     parts := parts (Path base)
                              ++ drop (length (parts p)) (parts f) |}))
       <$> found) ∧
    length (ArchiveBuilder._files builder')
    = length (ArchiveBuilder._files builder) + length found ∧
    (found = [] → builder' = builder).
Proof.
  intros base found Hall. unfold ArchiveBuilder.add_dir. fold base.
  destruct (add_dir_walk_spec builder p base fs (path_rglob tree p) Hall)
    as (b1 & Hrun & Hp & Hf & Hfiles).
  fold found in Hfiles. exists b1. split_and!; [done..| |].
  - by rewrite Hfiles, length_app, length_fmap.
  - intros Hnil. rewrite Hnil in Hfiles. simpl in Hfiles.
    rewrite app_nil_r in Hfiles.
    destruct b1, builder. simpl in *. by subst.
Qed.






(** ** The further theorems at work *)


Lemma build_touches_only_target_witness :
  (ArchiveBuilder.build demo_host
     (queue_bytes (ArchiveBuilder.__init__ (Path "out.zip") None) hello_world)
     source_fs).1 !! "notes/todo.txt"
  = source_fs !! "notes/todo.txt".
Proof. apply build_touches_only_target. by_evaluation. Defined.









Lemma listed_entry_flags_witness :
  let e := Archive.tar_entry (tar_member ("docs/a.txt", bytes_of "Hello")) in
  ¬ (is_dir e = true ∧ is_file e = true) ∧
  (Archive.format tar_archive = ZIP →
     is_file e = negb (is_dir e) ∧ is_dir e = endswith (entry_name e) "/" ∧
     mode e = 0) ∧
  (Archive.is_tar (Archive.format tar_archive) = true → compressed_size e = 0).
Proof.
  apply (listed_entry_flags tar_archive (Archive.tar_entry <$> sample_tar) _ tar_fs).
  - reflexivity.
  - right. left.
Defined.

Lemma info_matches_list_witness :
  ∃ i, Archive.info demo_host zip_archive zip_fs = Ok i ∧
       entries i = Archive.zip_entry <$> (zip_member demo_host <$> hello_world).
Proof.
  apply (proj1 (proj2 (info_matches_list demo_host zip_archive zip_fs))
           (ZipFile (zip_member demo_host <$> hello_world))); reflexivity.
Defined.




Lemma detection_ignores_directories_witness :
  Archive._detect_format (joinpath (Path "backup.zip") "data.bin")
  = Archive._detect_format (Path "data.bin") ∧
  ArchiveBuilder._detect_format (joinpath (Path "backup.zip") "data.bin")
  = ArchiveBuilder._detect_format (Path "data.bin").
Proof.
  apply detection_ignores_directories; [reflexivity | by_evaluation].
Defined.


Lemma add_dir_queues_files_witness :
  ∃ builder',
    ArchiveBuilder.add_dir notes_tree
      (ArchiveBuilder.__init__ (Path "out.zip") None) (Path "notes") None notes_fs
    = (builder', None) ∧
    ArchiveBuilder.path builder' = Path "out.zip" ∧
    ArchiveBuilder.format builder' = ZIP ∧
    ArchiveBuilder._files builder'
    = [(ArchiveBuilder.from_path (Path "notes/todo.txt"), "notes/todo.txt");
       (ArchiveBuilder.from_path (Path "notes/sub/x.bin"), "notes/sub/x.bin")] ∧
    length (ArchiveBuilder._files builder') = 2 ∧
    (filter (λ f, is_Some (notes_fs !! str f)) (path_rglob notes_tree (Path "notes"))
     = [] → builder' = ArchiveBuilder.__init__ (Path "out.zip") None).
Proof.
  exact (add_dir_queues_files notes_tree
           (ArchiveBuilder.__init__ (Path "out.zip") None) (Path "notes") None
           notes_fs ltac:(by_evaluation)).
Defined.

